(** * elastictools.indextools: the IndexTool facade over an index service

    A shallow embedding of [src/elastictools/indextools.py].  Python
    dictionaries are finite maps with string keys, Python exceptions are
    the left summand of a sum, and the calls made on the service client
    are threaded through an explicit state that also records every
    request issued. *)

From stdpp Require Import gmap strings list fin_maps.

Open Scope string_scope.

(** ** Python values *)

(** The JSON-shaped objects that travel between the caller, the facade
    and the service client. *)
#[warnings="-register-all"]
Inductive value : Type :=
  | VNone
  | VBool (b : bool)
  | VInt (z : Z)
  | VStr (s : string)
  | VList (l : list value)
  | VDict (d : gmap string value).

(** Python's truth test, as used by [if x:] and [if not x:]. *)
Definition truthy (v : value) : bool :=
  match v with
  | VNone => false
  | VBool b => b
  | VInt z => negb (z =? 0)%Z
  | VStr s => negb (String.eqb s "")
  | VList l => negb (Nat.eqb (length l) 0)
  | VDict d => negb (Nat.eqb (size d) 0)
  end.

(** ** Exceptions *)

Inductive exn : Type :=
  | ValueError (msg : string)
  | KeyError (key : string)
  | IndexError
  | TypeError
  | AttributeError (attr : string)
  | TransportError (status : Z).

Definition result (A : Type) : Type := exn + A.

(** [v[k]] *)
Definition getitem (v : value) (k : string) : result value :=
  match v with
  | VDict d =>
      match d !! k with
      | Some x => inr x
      | None => inl (KeyError k)
      end
  | _ => inl TypeError
  end.

(** [v.pop(k, None)], returning the object after the removal. *)
Definition pop_default (v : value) (k : string) : result value :=
  match v with
  | VDict d => inr (VDict (delete k d))
  | VList _ => inl TypeError
  | _ => inl (AttributeError "pop")
  end.

(** [settings['index'].pop(k, None)]: the object bound to ['index'] is
    updated in place, so [settings] sees the removal. *)
Definition pop_index_key (settings : value) (k : string) : result value :=
  match getitem settings "index" with
  | inl e => inl e
  | inr ix =>
      match pop_default ix k with
      | inl e => inl e
      | inr ix' =>
          match settings with
          | VDict d => inr (VDict (<["index" := ix']> d))
          | _ => inl TypeError
          end
      end
  end.

(** ** set_doctype *)

Definition set_doctype (mapping : value) (doc_type : string) : result value :=
  match mapping with
  | VDict d =>
      if negb (Nat.eqb (size d) 1) then
        inl (ValueError "There should be exactly one doc_type in a mapping.")
      else
        match (map_to_list d).*1 !! 0%nat with
        | None => inl IndexError
        | Some key =>
            if String.eqb key doc_type then inr mapping
            else
              match d !! key with
              | None => inl (KeyError key)
              | Some body => inr (VDict (delete key (<[doc_type := body]> d)))
              end
        end
  | _ => inl (AttributeError "keys")
  end.

(** ** The index service behind the client

    The client object [self._es] belongs to the [elasticsearch] package.
    It is modelled as an in-memory service: a finite map from index
    names to what the service holds for them, together with the list of
    requests received so far.  Replies to the read requests carry the
    per-index envelope that the facade unwraps.  A read of a missing
    index is answered 404 and the creation of an existing one 400, both
    surfacing as [TransportError]; every other request is accepted.
    Keyword arguments passed through [**kwargs] are left out. *)

Record index_state : Type := IndexState {
  idx_info : value;
  idx_mappings : value;
  idx_settings : value;
  idx_stats : value
}.

Inductive request : Type :=
  | ReqExists (index : string)
  | ReqGet (index : string)
  | ReqGetMapping (index : string)
  | ReqGetSettings (index : string)
  | ReqStats (index : string)
  | ReqCreate (index : string) (body : value)
  | ReqDelete (index : string)
  | ReqReindex (body : value).

(** The requests that change the service. *)
Definition is_write (r : request) : bool :=
  match r with
  | ReqCreate _ _ | ReqDelete _ | ReqReindex _ => true
  | _ => false
  end.

Record world : Type := World {
  indices : gmap string index_state;
  requests : list request
}.

Definition record_request (r : request) (w : world) : world :=
  World (indices w) (requests w ++ [r]).

(** What the service does with a creation payload and what it answers to
    a write is its own business; the facade only forwards it. *)
Class Service : Type := {
  materialise : string -> value -> index_state;
  acknowledge : request -> value
}.

(** ** The monad of the facade: state of the service, plus exceptions *)

Definition M (A : Type) : Type := world -> result A * world.

Definition ret {A} (a : A) : M A := fun w => (inr a, w).
Definition raise {A} (e : exn) : M A := fun w => (inl e, w).
Definition lift {A} (r : result A) : M A := fun w => (r, w).
Definition bind {A B} (m : M A) (k : A -> M B) : M B :=
  fun w =>
    match m w with
    | (inl e, w') => (inl e, w')
    | (inr a, w') => k a w'
    end.

Notation "'let*' x := m 'in' k" := (bind m (fun x => k))
  (at level 10, x name, m at level 100, k at level 200,
   format "'[v' 'let*'  x  :=  m  'in' '/' k ']'").
Notation "'run' m 'in' k" := (bind m (fun _ => k))
  (at level 10, m at level 100, k at level 200,
   format "'[v' 'run'  m  'in' '/' k ']'").

Section Client.
Context `{Service}.

(** [self._es.indices.exists(index)] *)
Definition es_exists (index : string) : M bool :=
  fun w => (inr (bool_decide (is_Some (indices w !! index))),
            record_request (ReqExists index) w).

Definition es_read (r : request) (index : string)
    (envelope : index_state -> value) : M value :=
  fun w =>
    match indices w !! index with
    | Some ix => (inr (envelope ix), record_request r w)
    | None => (inl (TransportError 404), record_request r w)
    end.

(** [self._es.indices.get(index)] *)
Definition es_get (index : string) : M value :=
  es_read (ReqGet index) index
    (fun ix => VDict {[ index := idx_info ix ]}).

(** [self._es.indices.get_mapping(index=index)] *)
Definition es_get_mapping (index : string) : M value :=
  es_read (ReqGetMapping index) index
    (fun ix => VDict {[ index := VDict {[ "mappings" := idx_mappings ix ]} ]}).

(** [self._es.indices.get_settings(index=index)] *)
Definition es_get_settings (index : string) : M value :=
  es_read (ReqGetSettings index) index
    (fun ix => VDict {[ index := VDict {[ "settings" := idx_settings ix ]} ]}).

(** [self._es.indices.stats(index=index)] *)
Definition es_stats (index : string) : M value :=
  es_read (ReqStats index) index
    (fun ix => VDict {[ "indices" := VDict {[ index := idx_stats ix ]} ]}).

(** [self._es.indices.create(index=index, body=body)] *)
Definition es_create (index : string) (body : value) : M value :=
  fun w =>
    let r := ReqCreate index body in
    match indices w !! index with
    | Some _ => (inl (TransportError 400), record_request r w)
    | None =>
        (inr (acknowledge r),
         World (<[index := materialise index body]> (indices w))
               (requests w ++ [r]))
    end.

(** [self._es.indices.delete(index=index, ignore=404)] *)
Definition es_delete_ignore_404 (index : string) : M value :=
  fun w =>
    let r := ReqDelete index in
    (inr (acknowledge r), World (delete index (indices w)) (requests w ++ [r])).

(** [self._es.reindex(body=body)] *)
Definition es_reindex (body : value) : M value :=
  fun w =>
    let r := ReqReindex body in
    (inr (acknowledge r), record_request r w).

(** ** IndexTool *)

Definition exists_ (index_name : string) : M bool := es_exists index_name.

Definition get_info (index_name : string) : M value :=
  let* found := exists_ index_name in
  if negb found then ret VNone
  else
    let* r := es_get index_name in
    lift (getitem r index_name).

Definition get_mapping (index_name : string) : M value :=
  let* found := exists_ index_name in
  if negb found then ret VNone
  else
    let* r := es_get_mapping index_name in
    let* e := lift (getitem r index_name) in
    lift (getitem e "mappings").

(** [if doc_type:] on an optional name. *)
Definition truthy_name (doc_type : option string) : bool :=
  match doc_type with
  | None => false
  | Some s => negb (String.eqb s "")
  end.

(** [set_doctype] mutates and returns its argument, so the mapping
    returned here is the one it hands back. *)
Definition clone_mapping (index_name : string) (doc_type : option string)
    : M value :=
  let* found := exists_ index_name in
  if negb found then raise (ValueError ("index not existed: " ++ index_name))
  else
    let* r := es_get_mapping index_name in
    let* e := lift (getitem r index_name) in
    let* mapping := lift (getitem e "mappings") in
    match doc_type with
    | Some t => if truthy_name doc_type then lift (set_doctype mapping t)
                else ret mapping
    | None => ret mapping
    end.

Definition get_settings (index_name : string) : M value :=
  let* found := exists_ index_name in
  if negb found then ret VNone
  else
    let* r := es_get_settings index_name in
    let* e := lift (getitem r index_name) in
    lift (getitem e "settings").

Definition clone_settings (index_name : string) : M value :=
  let* found := exists_ index_name in
  if negb found then raise (ValueError ("index not existed: " ++ index_name))
  else
    let* r := es_get_settings index_name in
    let* e := lift (getitem r index_name) in
    let* settings := lift (getitem e "settings") in
    let* settings := lift (pop_index_key settings "creation_date") in
    let* settings := lift (pop_index_key settings "version") in
    let* settings := lift (pop_index_key settings "uuid") in
    let* settings := lift (pop_index_key settings "provided_name") in
    ret settings.

Definition stats (index_name : string) : M value :=
  let* found := exists_ index_name in
  if negb found then ret VNone
  else
    let* r := es_stats index_name in
    let* e := lift (getitem r "indices") in
    lift (getitem e index_name).

Definition delete_ (index_name : string) : M value :=
  es_delete_ignore_404 index_name.

Definition create (index_name : string) (body mapping settings overwrite : value)
    : M value :=
  let* found := exists_ index_name in
  run (if found then
         if negb (truthy overwrite) then
           raise (ValueError (index_name ++ " index already existed."))
         else run delete_ index_name in ret tt
       else ret tt) in
  if truthy body then es_create index_name body
  else es_create index_name
         (VDict {[ "settings" := settings; "mappings" := mapping ]}).

Definition reindex_body (src_index dest_index : string) (size script : value)
    : gmap string value :=
  let body : gmap string value :=
    {[ "source" := VDict {[ "index" := VStr src_index ]};
       "dest" := VDict {[ "index" := VStr dest_index ]} ]} in
  let body := if truthy size then <["size" := size]> body else body in
  let body := if truthy script then <["script" := script]> body else body in
  body.

Definition clone (src_index dest_index : string)
    (mapping settings size script overwrite : value) : M value :=
  let* found := exists_ src_index in
  if negb found then
    raise (ValueError ("src_index not existed: " ++ src_index))
  else
    let* mapping := (if negb (truthy mapping) then clone_mapping src_index None
                     else ret mapping) in
    let* settings := (if negb (truthy settings) then clone_settings src_index
                      else ret settings) in
    run create dest_index VNone mapping settings overwrite in
    es_reindex (VDict (reindex_body src_index dest_index size script)).

End Client.

(** The keys that [clone_settings] pops from the ['index'] object. *)
Definition server_assigned_keys : list string :=
  ["creation_date"; "version"; "uuid"; "provided_name"].

(** Which requests one run added to the log. *)
Definition issued (w w' : world) (rs : list request) : Prop :=
  requests w' = (requests w ++ rs)%list.

Definition no_writes (rs : list request) : bool :=
  forallb (fun r => negb (is_write r)) rs.

(** A computation that only ever appends to the log. *)
Definition grows {A} (m : M A) : Prop :=
  forall w, exists rs, issued w (m w).2 rs.

(** ** A small service to run the facade on *)

Definition item (v : value) (k : string) : value :=
  match getitem v k with
  | inr x => x
  | inl _ => VNone
  end.

Definition sample_service : Service := {|
  materialise := fun _ body =>
    IndexState body (item body "mappings") (item body "settings") (VDict ∅);
  acknowledge := fun _ => VDict {[ "acknowledged" := VBool true ]}
|}.

Definition sample_mapping : value :=
  VDict {[ "doc" :=
    VDict {[ "properties" :=
      VDict {[ "f" := VDict {[ "type" := VStr "text" ]} ]} ]} ]}.

Definition sample_settings : value :=
  VDict {[ "index" :=
    VDict {[ "number_of_shards" := VStr "3";
             "creation_date" := VStr "169";
             "uuid" := VStr "abc" ]} ]}.

Definition sample_src : index_state :=
  IndexState (VDict ∅) sample_mapping sample_settings (VDict ∅).

(** One index, ["src"], and nothing requested yet. *)
Definition sample_world : world := World {[ "src" := sample_src ]} [].

(** An index whose settings have no ['index'] object. *)
Definition bare_src : index_state :=
  IndexState (VDict ∅) sample_mapping (VDict {[ "refresh" := VStr "1s" ]}) (VDict ∅).

Definition bare_world : world := World {[ "src" := bare_src ]} [].

(** Two indices: ["src"] and an already existing ["dst"]. *)
Definition crowded_world : world :=
  World {[ "src" := sample_src; "dst" := bare_src ]} [].

Definition sample_script : value :=
  VDict {[ "source" := VStr "ctx._source.n++" ]}.

(** The service after [clone("src", "dst", size=100, script=...)]. *)
Definition sample_cloned : world :=
  (@clone sample_service "src" "dst" VNone VNone (VInt 100) sample_script VNone
     sample_world).2.

(** An index whose mapping holds two document types. *)
Definition multi_src : index_state :=
  IndexState (VDict ∅)
    (VDict {[ "a" := VDict ∅; "b" := VDict ∅ ]}) sample_settings (VDict ∅).

Definition multi_world : world := World {[ "src" := multi_src ]} [].

(** ** Vocabulary for the effects of a run *)

(** The run leaves the indices alone and issues no write. *)
Definition quiet {A} (m : M A) (w : world) : Prop :=
  indices (m w).2 = indices w /\
  exists rs, issued w (m w).2 rs /\ no_writes rs = true.

(** The run leaves every index other than [name] as it was. *)
Definition touches_only {A} (name : string) (m : M A) : Prop :=
  forall w other, other <> name -> indices (m w).2 !! other = indices w !! other.

(** * Properties *)

(** ** Dictionaries with a single key *)

Lemma size_one_singleton (d : gmap string value) :
  size d = 1 -> exists k b, d = {[ k := b ]}.
Proof.
  rewrite <- length_map_to_list. intros Hlen.
  destruct (map_to_list d) as [|[k b] [|? ?]] eqn:Hl; simpl in Hlen; try lia.
  exists k, b.
  rewrite <- (list_to_map_to_list d), Hl. simpl.
  reflexivity.
Qed.

Lemma set_doctype_singleton (k t : string) (b : value) :
  set_doctype (VDict {[ k := b ]}) t = inr (VDict {[ t := b ]}).
Proof.
  unfold set_doctype.
  rewrite map_size_singleton, map_to_list_singleton. simpl.
  destruct (String.eqb k t) eqn:Hkt.
  - apply String.eqb_eq in Hkt. subst t. reflexivity.
  - apply String.eqb_neq in Hkt.
    rewrite lookup_singleton_eq.
    rewrite delete_insert_ne by exact Hkt.
    rewrite delete_singleton_eq, insert_empty.
    reflexivity.
Qed.

(** ** set_doctype *)

(** C5: a mapping with exactly one top-level key [k] bound to [b] comes
    back from [set_doctype] as the mapping whose only key is the new
    document type, bound to [b]; when [k] already is the new type the
    result is the mapping that went in. *)
Theorem set_doctype_rebinds_single_key (d : gmap string value) (doc_type : string) :
  size d = 1 ->
  exists k b,
    d = {[ k := b ]} /\
    set_doctype (VDict d) doc_type = inr (VDict {[ doc_type := b ]}) /\
    (k = doc_type -> set_doctype (VDict d) doc_type = inr (VDict d)).
Proof.
  intros Hsize.
  destruct (size_one_singleton d Hsize) as (k & b & ->).
  exists k, b. split; [reflexivity|]. split.
  - apply set_doctype_singleton.
  - intros ->. apply set_doctype_singleton.
Qed.

Lemma set_doctype_rebinds_single_key_witness :
  size ({[ "doc" := VInt 7 ]} : gmap string value) = 1 /\
  exists k b,
    ({[ "doc" := VInt 7 ]} : gmap string value) = {[ k := b ]} /\
    set_doctype (VDict {[ "doc" := VInt 7 ]}) "item" = inr (VDict {[ "item" := b ]}) /\
    (k = "item" ->
     set_doctype (VDict {[ "doc" := VInt 7 ]}) "item" = inr (VDict {[ "doc" := VInt 7 ]})).
Proof.
  split; [reflexivity|].
  apply (set_doctype_rebinds_single_key {[ "doc" := VInt 7 ]} "item").
  reflexivity.
Defined.

(** C6: a mapping whose number of top-level keys is not one (none, or
    two and more) makes [set_doctype] raise the ValueError
    "There should be exactly one doc_type in a mapping." and no mapping
    is returned. *)
Theorem set_doctype_rejects_other_sizes (d : gmap string value) (doc_type : string) :
  size d <> 1 ->
  set_doctype (VDict d) doc_type
  = inl (ValueError "There should be exactly one doc_type in a mapping.").
Proof.
  intros Hsize. unfold set_doctype.
  destruct (Nat.eqb (size d) 1) eqn:Heq; [|reflexivity].
  apply Nat.eqb_eq in Heq. contradiction.
Qed.

Lemma set_doctype_rejects_other_sizes_witness :
  size ({[ "a" := VDict ∅; "b" := VDict ∅ ]} : gmap string value) <> 1 /\
  set_doctype (VDict {[ "a" := VDict ∅; "b" := VDict ∅ ]}) "c"
  = inl (ValueError "There should be exactly one doc_type in a mapping.").
Proof.
  assert (Hs : size ({[ "a" := VDict ∅; "b" := VDict ∅ ]} : gmap string value) <> 1)
    by (vm_compute; discriminate).
  split; [exact Hs|].
  exact (set_doctype_rejects_other_sizes {[ "a" := VDict ∅; "b" := VDict ∅ ]} "c" Hs).
Defined.

(** ** Running the facade *)

Section ClientFacts.
Context `{Service}.

Lemma bind_ok {A B} (m : M A) (k : A -> M B) w a w' :
  m w = (inr a, w') -> bind m k w = k a w'.
Proof. unfold bind. intros ->. reflexivity. Qed.

Lemma exists_missing w name :
  indices w !! name = None ->
  exists_ name w = (inr false, record_request (ReqExists name) w).
Proof.
  intros Hnone. unfold exists_, es_exists. rewrite Hnone.
  rewrite bool_decide_eq_false_2; [reflexivity|].
  intros [? ?]; discriminate.
Qed.

Lemma exists_found w name ix :
  indices w !! name = Some ix ->
  exists_ name w = (inr true, record_request (ReqExists name) w).
Proof.
  intros Hsome. unfold exists_, es_exists. rewrite Hsome.
  rewrite bool_decide_eq_true_2; [reflexivity|]. eauto.
Qed.

(** A guarded read of a missing index stops after the existence check. *)
Lemma guarded_read_missing (k : M value) w name :
  indices w !! name = None ->
  (let* found := exists_ name in if negb found then ret VNone else k) w
  = (inr VNone, record_request (ReqExists name) w).
Proof.
  intros Hnone.
  rewrite (bind_ok _ _ _ _ _ (exists_missing _ _ Hnone)).
  reflexivity.
Qed.

Lemma bind_lift_ok {A B} (a : A) (k : A -> M B) w :
  bind (lift (inr a)) k w = k a w.
Proof. reflexivity. Qed.

Lemma bind_inr_inv {A B} (m : M A) (k : A -> M B) w b w' :
  bind m k w = (inr b, w') ->
  exists a w1, m w = (inr a, w1) /\ k a w1 = (inr b, w').
Proof.
  unfold bind. destruct (m w) as [[e|a] w1]; [discriminate|].
  intros Hk. exists a, w1. auto.
Qed.

(** *** Unwrapping the reply envelopes *)

Lemma getitem_singleton k v : getitem (VDict {[ k := v ]}) k = inr v.
Proof. unfold getitem. rewrite lookup_singleton_eq. reflexivity. Qed.

Lemma fetch_settings w name ix (k : value -> M value) :
  indices w !! name = Some ix ->
  (let* r := es_get_settings name in
   let* e := lift (getitem r name) in
   let* settings := lift (getitem e "settings") in
   k settings) w
  = k (idx_settings ix) (record_request (ReqGetSettings name) w).
Proof.
  intros Hsome. unfold bind at 1, es_get_settings, es_read. rewrite Hsome.
  rewrite getitem_singleton, bind_lift_ok.
  rewrite getitem_singleton, bind_lift_ok.
  reflexivity.
Qed.

Lemma fetch_mapping w name ix (k : value -> M value) :
  indices w !! name = Some ix ->
  (let* r := es_get_mapping name in
   let* e := lift (getitem r name) in
   let* mapping := lift (getitem e "mappings") in
   k mapping) w
  = k (idx_mappings ix) (record_request (ReqGetMapping name) w).
Proof.
  intros Hsome. unfold bind at 1, es_get_mapping, es_read. rewrite Hsome.
  rewrite getitem_singleton, bind_lift_ok.
  rewrite getitem_singleton, bind_lift_ok.
  reflexivity.
Qed.

(** *** clone_mapping and clone_settings on an existing index *)

Lemma clone_mapping_plain w name ix :
  indices w !! name = Some ix ->
  clone_mapping name None w
  = (inr (idx_mappings ix),
     record_request (ReqGetMapping name) (record_request (ReqExists name) w)).
Proof.
  intros Hsome. unfold clone_mapping.
  rewrite (bind_ok _ _ _ _ _ (exists_found _ _ _ Hsome)). cbv beta. cbn [negb]. cbv iota.
  rewrite (fetch_mapping _ _ ix) by exact Hsome.
  reflexivity.
Qed.

Lemma pop_index_key_dict (s i : gmap string value) k :
  s !! "index" = Some (VDict i) ->
  pop_index_key (VDict s) k = inr (VDict (<["index" := VDict (delete k i)]> s)).
Proof. intros Hix. unfold pop_index_key, getitem. rewrite Hix. reflexivity. Qed.

Lemma pop_index_key_again (s i : gmap string value) k :
  pop_index_key (VDict (<["index" := VDict i]> s)) k
  = inr (VDict (<["index" := VDict (delete k i)]> s)).
Proof.
  rewrite (pop_index_key_dict _ i) by apply lookup_insert_eq.
  rewrite insert_insert_eq. reflexivity.
Qed.

Lemma clone_settings_stripped w name ix (s i : gmap string value) :
  indices w !! name = Some ix ->
  idx_settings ix = VDict s ->
  s !! "index" = Some (VDict i) ->
  clone_settings name w
  = (inr (VDict (<["index" :=
        VDict (delete "provided_name"
                 (delete "uuid" (delete "version" (delete "creation_date" i))))]> s)),
     record_request (ReqGetSettings name) (record_request (ReqExists name) w)).
Proof.
  intros Hsome Hs Hix. unfold clone_settings.
  rewrite (bind_ok _ _ _ _ _ (exists_found _ _ _ Hsome)). cbv beta. cbn [negb]. cbv iota.
  rewrite (fetch_settings _ _ ix) by exact Hsome.
  rewrite Hs.
  rewrite (pop_index_key_dict s i) by exact Hix. rewrite bind_lift_ok.
  repeat (rewrite pop_index_key_again, bind_lift_ok).
  reflexivity.
Qed.

Lemma clone_settings_no_index_object w name ix (s : gmap string value) :
  indices w !! name = Some ix ->
  idx_settings ix = VDict s ->
  s !! "index" = None ->
  clone_settings name w
  = (inl (KeyError "index"),
     record_request (ReqGetSettings name) (record_request (ReqExists name) w)).
Proof.
  intros Hsome Hs Hix. unfold clone_settings.
  rewrite (bind_ok _ _ _ _ _ (exists_found _ _ _ Hsome)). cbv beta. cbn [negb]. cbv iota.
  rewrite (fetch_settings _ _ ix) by exact Hsome.
  rewrite Hs. unfold pop_index_key at 1, getitem. rewrite Hix.
  reflexivity.
Qed.

Lemma stripped_lookup (i : gmap string value) k :
  delete "provided_name"
    (delete "uuid" (delete "version" (delete "creation_date" i))) !! k
  = if decide (k ∈ server_assigned_keys) then None else i !! k.
Proof.
  destruct (decide (k ∈ server_assigned_keys)) as [Hin|Hout];
    unfold server_assigned_keys in *.
  - rewrite !lookup_delete.
    repeat (apply elem_of_cons in Hin as [->|Hin]);
      try (repeat case_decide; congruence).
    apply elem_of_nil in Hin. contradiction.
  - rewrite !lookup_delete_ne; [reflexivity|..];
      intros <-; apply Hout; rewrite !elem_of_cons; auto 6.
Qed.

(** ** Reads of a missing index *)

(** C8: for an index name that does not exist, [get_info],
    [get_mapping], [get_settings] and [stats] each return [None]; none
    raises, and each stops after the existence check. *)
Theorem accessors_return_none_when_missing w index_name :
  indices w !! index_name = None ->
  get_info index_name w = (inr VNone, record_request (ReqExists index_name) w) /\
  get_mapping index_name w = (inr VNone, record_request (ReqExists index_name) w) /\
  get_settings index_name w = (inr VNone, record_request (ReqExists index_name) w) /\
  stats index_name w = (inr VNone, record_request (ReqExists index_name) w).
Proof.
  intros Hnone.
  unfold get_info, get_mapping, get_settings, stats.
  repeat split; apply guarded_read_missing; exact Hnone.
Qed.

(** ** Guards of the writing operations *)

(** C2: when the source index does not exist, [clone] raises the
    ValueError "src_index not existed: <src>" whatever the other
    arguments are; the service keeps the indices it had, and the only
    request issued is the existence check, which is no write. *)
Theorem clone_missing_source_fails_without_writes
    w src_index dest_index mapping settings size script overwrite :
  indices w !! src_index = None ->
  let out := clone src_index dest_index mapping settings size script overwrite w in
  out.1 = inl (ValueError ("src_index not existed: " ++ src_index)) /\
  indices out.2 = indices w /\
  issued w out.2 [ReqExists src_index] /\
  no_writes [ReqExists src_index] = true.
Proof.
  intros Hnone out. subst out. unfold clone.
  rewrite (bind_ok _ _ _ _ _ (exists_missing _ _ Hnone)).
  simpl. unfold issued. auto.
Qed.

(** C4: [create] on a name that already exists, with [overwrite] false,
    raises the ValueError "<name> index already existed."; the existing
    index stays as it was, and the only request issued before the error
    is the existence check: no delete, no create, no other write. *)
Theorem create_existing_without_overwrite_fails
    w index_name ix body mapping settings overwrite :
  indices w !! index_name = Some ix ->
  truthy overwrite = false ->
  let out := create index_name body mapping settings overwrite w in
  out.1 = inl (ValueError (index_name ++ " index already existed.")) /\
  indices out.2 = indices w /\
  indices out.2 !! index_name = Some ix /\
  issued w out.2 [ReqExists index_name] /\
  no_writes [ReqExists index_name] = true.
Proof.
  intros Hsome Hov out. subst out. unfold create.
  rewrite (bind_ok _ _ _ _ _ (exists_found _ _ _ Hsome)).
  rewrite Hov. simpl. unfold issued. auto.
Qed.

(** ** clone_settings *)

(** C3, amended: for an existing index whose fetched settings hold an
    object under "index", [clone_settings] succeeds and returns those
    settings with creation_date, version, uuid and provided_name gone
    from the "index" object, whichever of the four were there to begin
    with; every other key of that object is kept, and nothing is written
    to the service. *)
Theorem clone_settings_strips_server_keys w index_name ix (s i : gmap string value) :
  indices w !! index_name = Some ix ->
  idx_settings ix = VDict s ->
  s !! "index" = Some (VDict i) ->
  let out := clone_settings index_name w in
  exists i' : gmap string value,
    out.1 = inr (VDict (<["index" := VDict i']> s)) /\
    (forall k, k ∈ server_assigned_keys -> i' !! k = None) /\
    (forall k, k ∉ server_assigned_keys -> i' !! k = i !! k) /\
    indices out.2 = indices w /\
    issued w out.2 [ReqExists index_name; ReqGetSettings index_name].
Proof.
  intros Hsome Hs Hix out. subst out.
  rewrite (clone_settings_stripped w index_name ix s i Hsome Hs Hix).
  eexists. split; [reflexivity|].
  split; [|split; [|split]].
  - intros k Hk. rewrite stripped_lookup, decide_True by exact Hk. reflexivity.
  - intros k Hk. rewrite stripped_lookup, decide_False by exact Hk. reflexivity.
  - reflexivity.
  - unfold issued. simpl. rewrite <- app_assoc. reflexivity.
Qed.

(** C10: for an existing index whose settings dictionary has no "index"
    key, [clone_settings] raises [KeyError('index')]: the lookup of the
    sub-mapping itself is unguarded, only the four pops are. *)
Theorem clone_settings_needs_index_object w index_name ix (s : gmap string value) :
  indices w !! index_name = Some ix ->
  idx_settings ix = VDict s ->
  s !! "index" = None ->
  (clone_settings index_name w).1 = inl (KeyError "index").
Proof.
  intros Hsome Hs Hix.
  rewrite (clone_settings_no_index_object w index_name ix s Hsome Hs Hix).
  reflexivity.
Qed.

(** ** create *)

Lemma create_sends w index_name body mapping settings overwrite :
  indices w !! index_name = None \/ truthy overwrite = true ->
  create index_name body mapping settings overwrite w
  = let payload :=
      if truthy body then body
      else VDict {[ "settings" := settings; "mappings" := mapping ]} in
    let w1 := record_request (ReqExists index_name) w in
    let w2 :=
      if bool_decide (is_Some (indices w !! index_name))
      then World (delete index_name (indices w))
                 (requests w1 ++ [ReqDelete index_name])
      else w1 in
    (inr (acknowledge (ReqCreate index_name payload)),
     World (<[index_name := materialise index_name payload]> (indices w))
           (requests w2 ++ [ReqCreate index_name payload])).
Proof.
  intros Hgo. unfold create.
  destruct (indices w !! index_name) as [ix|] eqn:Hix.
  - destruct Hgo as [Hgo|Hov]; [discriminate|].
    rewrite (bind_ok _ _ _ _ _ (exists_found _ _ _ Hix)).
    rewrite Hov. cbn [negb]. cbv iota.
    rewrite bool_decide_eq_true_2 by eauto.
    unfold bind at 1. unfold bind at 1. unfold delete_, es_delete_ignore_404. simpl.
    destruct (truthy body); unfold es_create; simpl;
      rewrite lookup_delete_eq, insert_delete_eq; reflexivity.
  - rewrite (bind_ok _ _ _ _ _ (exists_missing _ _ Hix)).
    rewrite bool_decide_eq_false_2 by (intros [? ?]; discriminate).
    unfold bind at 1. simpl.
    destruct (truthy body); unfold es_create; simpl; rewrite Hix; reflexivity.
Qed.

(** What [create] sends once it gets as far as the creation request
    (the name is free, or [overwrite] is true): a body that is true in
    Python's sense goes out verbatim, and for any other body the
    payload is [{'settings': settings, 'mappings': mapping}], either of
    which may be [None]. *)
Theorem create_payload_follows_body_truth
    w index_name body mapping settings overwrite :
  indices w !! index_name = None \/ truthy overwrite = true ->
  let out := create index_name body mapping settings overwrite w in
  let deletes :=
    if bool_decide (is_Some (indices w !! index_name))
    then [ReqDelete index_name] else [] in
  exists payload,
    out.1 = inr (acknowledge (ReqCreate index_name payload)) /\
    issued w out.2
      ([ReqExists index_name] ++ deletes ++ [ReqCreate index_name payload]) /\
    (truthy body = true -> payload = body) /\
    (truthy body = false ->
     payload = VDict {[ "settings" := settings; "mappings" := mapping ]}).
Proof.
  intros Hgo out deletes. subst out deletes.
  rewrite (create_sends w index_name body mapping settings overwrite Hgo).
  cbv zeta. eexists. split; [reflexivity|]. split; [|split].
  - unfold issued. simpl.
    destruct (bool_decide (is_Some (indices w !! index_name))); simpl;
      rewrite <- ?app_assoc; reflexivity.
  - intros ->. reflexivity.
  - intros ->. reflexivity.
Qed.

(** ** clone *)

(** *** The log only grows *)

Lemma grows_ret {A} (a : A) : grows (ret a).
Proof. intros w. exists []. unfold issued. simpl. rewrite app_nil_r. reflexivity. Qed.

Lemma grows_raise {A} (e : exn) : grows (@raise A e).
Proof. intros w. exists []. unfold issued. simpl. rewrite app_nil_r. reflexivity. Qed.

Lemma grows_lift {A} (r : result A) : grows (lift r).
Proof. intros w. exists []. unfold issued. simpl. rewrite app_nil_r. reflexivity. Qed.

Lemma grows_bind {A B} (m : M A) (k : A -> M B) :
  grows m -> (forall a, grows (k a)) -> grows (bind m k).
Proof.
  intros Hm Hk w. unfold bind.
  destruct (Hm w) as [rs1 H1]. destruct (m w) as [[e|a] w1]; simpl in H1.
  - exists rs1. exact H1.
  - destruct (Hk a w1) as [rs2 H2]. exists (rs1 ++ rs2)%list.
    unfold issued in *. rewrite H2, H1, app_assoc. reflexivity.
Qed.

Lemma grows_exists name : grows (exists_ name).
Proof. intros w. exists [ReqExists name]. reflexivity. Qed.

Lemma grows_es_read r name envelope : grows (es_read r name envelope).
Proof.
  intros w. exists [r]. unfold es_read.
  destruct (indices w !! name); reflexivity.
Qed.

Lemma grows_es_create name body : grows (es_create name body).
Proof.
  intros w. exists [ReqCreate name body]. unfold es_create.
  destruct (indices w !! name); reflexivity.
Qed.

Lemma grows_delete name : grows (delete_ name).
Proof. intros w. exists [ReqDelete name]. reflexivity. Qed.

Create HintDb grows.
#[local] Hint Resolve grows_ret grows_raise grows_lift grows_exists grows_es_read
  grows_es_create grows_delete : grows.

Ltac grows_step :=
  first [ apply grows_bind; [|intros ?]
        | match goal with |- grows (if ?b then _ else _) => destruct b end
        | match goal with |- grows (match ?o with Some _ => _ | None => _ end) =>
            destruct o end
        | solve [auto with grows] ].

Lemma grows_clone_mapping name doc_type : grows (clone_mapping name doc_type).
Proof. unfold clone_mapping, es_get_mapping. repeat grows_step. Qed.

Lemma grows_clone_settings name : grows (clone_settings name).
Proof. unfold clone_settings, es_get_settings. repeat grows_step. Qed.

Lemma grows_create name body mapping settings overwrite :
  grows (create name body mapping settings overwrite).
Proof. unfold create. repeat grows_step. Qed.

Lemma grows_run {A} (m : M A) w a w' :
  grows m -> m w = (a, w') -> exists rs, issued w w' rs.
Proof. intros Hm Hrun. destruct (Hm w) as [rs Hrs]. rewrite Hrun in Hrs. eauto. Qed.

(** *** The reindex body *)

Lemma reindex_body_size src dst size script :
  reindex_body src dst size script !! "size"
  = if truthy size then Some size else None.
Proof.
  unfold reindex_body.
  destruct (truthy size), (truthy script); reflexivity.
Qed.

Lemma reindex_body_script src dst size script :
  reindex_body src dst size script !! "script"
  = if truthy script then Some script else None.
Proof.
  unfold reindex_body.
  destruct (truthy size), (truthy script);
    rewrite ?lookup_insert_eq; reflexivity.
Qed.

Lemma reindex_body_plain src dst size script :
  truthy size = false -> truthy script = false ->
  reindex_body src dst size script
  = {[ "source" := VDict {[ "index" := VStr src ]};
       "dest" := VDict {[ "index" := VStr dst ]} ]}.
Proof. unfold reindex_body. intros -> ->. reflexivity. Qed.

(** *** A successful run ends with the reindex request *)

Lemma clone_ok_ends_with_reindex
    w src dst mapping settings size script overwrite reply w' :
  clone src dst mapping settings size script overwrite w = (inr reply, w') ->
  exists pre,
    issued w w' (pre ++ [ReqReindex (VDict (reindex_body src dst size script))]).
Proof.
  unfold clone. intros Hrun.
  apply bind_inr_inv in Hrun as (found & w1 & H1 & Hrun).
  destruct (grows_run _ _ _ _ (grows_exists src) H1) as [rs1 Hrs1].
  destruct found; cbn [negb] in Hrun; [|discriminate].
  apply bind_inr_inv in Hrun as (mapping' & w2 & H2 & Hrun).
  assert (exists rs, issued w1 w2 rs) as [rs2 Hrs2].
  { destruct (truthy mapping); cbn [negb] in H2.
    - apply (grows_run _ _ _ _ (grows_ret mapping) H2).
    - apply (grows_run _ _ _ _ (grows_clone_mapping src None) H2). }
  apply bind_inr_inv in Hrun as (settings' & w3 & H3 & Hrun).
  assert (exists rs, issued w2 w3 rs) as [rs3 Hrs3].
  { destruct (truthy settings); cbn [negb] in H3.
    - apply (grows_run _ _ _ _ (grows_ret settings) H3).
    - apply (grows_run _ _ _ _ (grows_clone_settings src) H3). }
  apply bind_inr_inv in Hrun as (ack & w4 & H4 & Hrun).
  destruct (grows_run _ _ _ _ (grows_create _ _ _ _ _) H4) as [rs4 Hrs4].
  unfold es_reindex in Hrun. injection Hrun as _ <-.
  exists (rs1 ++ rs2 ++ rs3 ++ rs4)%list.
  unfold issued in *. simpl.
  rewrite Hrs4, Hrs3, Hrs2, Hrs1. rewrite <- !app_assoc. reflexivity.
Qed.

(** C9, amended: in every successful [clone] the last request is the
    reindex request; its body binds "size" to the size argument exactly
    when that argument is true in Python's sense (so not [None] and not
    0), binds "script" to the script argument exactly when that one is
    true (not [None], not empty), and holds only the source and dest
    keys when neither is. *)
Theorem clone_reindex_body_carries_size_and_script
    w src dst mapping settings size script overwrite reply w' :
  clone src dst mapping settings size script overwrite w = (inr reply, w') ->
  exists pre (body : gmap string value),
    issued w w' (pre ++ [ReqReindex (VDict body)]) /\
    (truthy size = true -> body !! "size" = Some size) /\
    (truthy script = true -> body !! "script" = Some script) /\
    (truthy size = false -> body !! "size" = None) /\
    (truthy script = false -> body !! "script" = None) /\
    (truthy size = false -> truthy script = false ->
     body = {[ "source" := VDict {[ "index" := VStr src ]};
               "dest" := VDict {[ "index" := VStr dst ]} ]}).
Proof.
  intros Hrun.
  destruct (clone_ok_ends_with_reindex _ _ _ _ _ _ _ _ _ _ Hrun) as [pre Hpre].
  exists pre, (reindex_body src dst size script).
  split; [exact Hpre|].
  rewrite reindex_body_size, reindex_body_script.
  repeat split.
  - intros ->. reflexivity.
  - intros ->. reflexivity.
  - intros ->. reflexivity.
  - intros ->. reflexivity.
  - apply reindex_body_plain.
Qed.

(** C1, amended: for an existing source index whose settings hold an
    object under "index", and a destination that does not exist yet (or
    [overwrite] true), [clone(src, dst)] with no mapping and no settings
    creates dst with exactly the source's mapping and the source's
    settings minus the four server-assigned keys of the "index" object,
    whatever [size] and [script] are, and then submits the reindex
    request; when size and script are not given its body is exactly
    [{"source": {"index": src}, "dest": {"index": dst}}]. *)
Theorem clone_defaults_copy_mapping_and_stripped_settings
    w src dst ix (s i : gmap string value) size script overwrite :
  indices w !! src = Some ix ->
  idx_settings ix = VDict s ->
  s !! "index" = Some (VDict i) ->
  indices w !! dst = None \/ truthy overwrite = true ->
  let out := clone src dst VNone VNone size script overwrite w in
  let deletes :=
    if bool_decide (is_Some (indices w !! dst)) then [ReqDelete dst] else [] in
  exists i' : gmap string value,
    (forall k, i' !! k = if decide (k ∈ server_assigned_keys) then None else i !! k) /\
    let payload :=
      VDict {[ "settings" := VDict (<["index" := VDict i']> s);
               "mappings" := idx_mappings ix ]} in
    let body := VDict (reindex_body src dst size script) in
    out.1 = inr (acknowledge (ReqReindex body)) /\
    issued w out.2
      ([ReqExists src; ReqExists src; ReqGetMapping src;
        ReqExists src; ReqGetSettings src; ReqExists dst]
       ++ deletes ++ [ReqCreate dst payload; ReqReindex body]) /\
    indices out.2 = <[dst := materialise dst payload]> (indices w) /\
    (truthy size = false -> truthy script = false ->
     body = VDict {[ "source" := VDict {[ "index" := VStr src ]};
                     "dest" := VDict {[ "index" := VStr dst ]} ]}).
Proof.
  intros Hsome Hs Hix Hgo out deletes. subst out deletes.
  exists (delete "provided_name"
            (delete "uuid" (delete "version" (delete "creation_date" i)))).
  split; [intros k; apply stripped_lookup|].
  cbv zeta. unfold clone.
  rewrite (bind_ok _ _ _ _ _ (exists_found _ _ _ Hsome)).
  cbv beta. cbn [negb truthy]. cbv iota.
  erewrite bind_ok by (apply (clone_mapping_plain _ src ix); exact Hsome).
  erewrite bind_ok
    by (apply (clone_settings_stripped _ src ix s i); [exact Hsome|exact Hs|exact Hix]).
  erewrite bind_ok by (apply create_sends; exact Hgo).
  unfold es_reindex, issued. cbn [fst snd requests indices record_request truthy].
  split; [reflexivity|]. split; [|split; [reflexivity|]].
  - destruct (bool_decide (is_Some (indices w !! dst)));
      cbn [requests record_request app]; rewrite <- !app_assoc; reflexivity.
  - intros Hsize Hscript.
    rewrite (reindex_body_plain src dst size script Hsize Hscript). reflexivity.
Qed.

End ClientFacts.

(** ** Concrete runs *)

Lemma clone_settings_strips_server_keys_witness :
  indices sample_world !! "src" = Some sample_src /\
  idx_settings sample_src
  = VDict {[ "index" :=
      VDict {[ "number_of_shards" := VStr "3";
               "creation_date" := VStr "169";
               "uuid" := VStr "abc" ]} ]} /\
  let out := clone_settings "src" sample_world in
  exists i' : gmap string value,
    out.1 = inr (VDict (<["index" := VDict i']>
                   {[ "index" :=
                      VDict {[ "number_of_shards" := VStr "3";
                               "creation_date" := VStr "169";
                               "uuid" := VStr "abc" ]} ]})) /\
    (forall k, k ∈ server_assigned_keys -> i' !! k = None) /\
    (forall k, k ∉ server_assigned_keys ->
       i' !! k = ({[ "number_of_shards" := VStr "3";
                     "creation_date" := VStr "169";
                     "uuid" := VStr "abc" ]} : gmap string value) !! k) /\
    indices out.2 = indices sample_world /\
    issued sample_world out.2 [ReqExists "src"; ReqGetSettings "src"].
Proof.
  split; [reflexivity|]. split; [reflexivity|].
  apply (clone_settings_strips_server_keys sample_world "src" sample_src);
    reflexivity.
Defined.

(** The claim C3 as first stated fails on an existing index whose
    settings carry no "index" object: [clone_settings] raises. *)
Lemma clone_settings_raises_on_bare_settings :
  indices bare_world !! "src" = Some bare_src /\
  (clone_settings "src" bare_world).1 = inl (KeyError "index") /\
  ~ (exists settings, (clone_settings "src" bare_world).1 = inr settings).
Proof.
  split; [reflexivity|].
  assert (Hrun : (clone_settings "src" bare_world).1 = inl (KeyError "index"))
    by (vm_compute; reflexivity).
  split; [exact Hrun|].
  intros [settings Hok]. rewrite Hrun in Hok. discriminate.
Qed.

Lemma clone_settings_needs_index_object_witness :
  indices bare_world !! "src" = Some bare_src /\
  idx_settings bare_src = VDict {[ "refresh" := VStr "1s" ]} /\
  ({[ "refresh" := VStr "1s" ]} : gmap string value) !! "index" = None /\
  (clone_settings "src" bare_world).1 = inl (KeyError "index").
Proof.
  split; [reflexivity|]. split; [reflexivity|]. split; [reflexivity|].
  apply (clone_settings_needs_index_object bare_world "src" bare_src
           {[ "refresh" := VStr "1s" ]}); reflexivity.
Defined.

Lemma create_payload_follows_body_truth_witness :
  (indices sample_world !! "dst" = None \/ truthy VNone = true) /\
  let out := @create sample_service "dst" sample_settings sample_mapping VNone VNone
               sample_world in
  let deletes :=
    if bool_decide (is_Some (indices sample_world !! "dst"))
    then [ReqDelete "dst"] else [] in
  exists payload,
    out.1 = inr (@acknowledge sample_service (ReqCreate "dst" payload)) /\
    issued sample_world out.2
      ([ReqExists "dst"] ++ deletes ++ [ReqCreate "dst" payload]) /\
    (truthy sample_settings = true -> payload = sample_settings) /\
    (truthy sample_settings = false ->
     payload = VDict {[ "settings" := VNone; "mappings" := sample_mapping ]}).
Proof.
  split; [left; reflexivity|].
  apply (@create_payload_follows_body_truth sample_service sample_world
           "dst" sample_settings sample_mapping VNone VNone).
  left. reflexivity.
Defined.

(** C7: a body that is given but empty is not sent.  The docstring of
    [create] says that a specified body makes it ignore [settings] and
    [mapping]; the test [if body:] is false for [{}], so the payload is
    assembled from the mapping and settings instead and differs from
    the body. *)
Lemma create_empty_body_is_not_sent :
  let out := @create sample_service "dst" (VDict ∅) sample_mapping sample_settings
               VNone sample_world in
  let assembled :=
    VDict {[ "settings" := sample_settings; "mappings" := sample_mapping ]} in
  requests out.2 = [ReqExists "dst"; ReqCreate "dst" assembled] /\
  assembled <> VDict ∅.
Proof.
  split; [vm_compute; reflexivity|].
  intros Heq.
  apply (f_equal (fun v => item v "settings")) in Heq.
  vm_compute in Heq. discriminate.
Qed.

Lemma accessors_return_none_when_missing_witness :
  indices sample_world !! "ghost" = None /\
  (let w := record_request (ReqExists "ghost") sample_world in
   get_info "ghost" sample_world = (inr VNone, w) /\
   get_mapping "ghost" sample_world = (inr VNone, w) /\
   get_settings "ghost" sample_world = (inr VNone, w) /\
   stats "ghost" sample_world = (inr VNone, w)).
Proof.
  split; [reflexivity|].
  apply (accessors_return_none_when_missing sample_world "ghost").
  reflexivity.
Defined.

Lemma clone_missing_source_fails_without_writes_witness :
  indices sample_world !! "ghost" = None /\
  (let out := @clone sample_service "ghost" "dst" VNone VNone (VInt 100) VNone (VBool true)
                sample_world in
   out.1 = inl (ValueError "src_index not existed: ghost") /\
   indices out.2 = indices sample_world /\
   issued sample_world out.2 [ReqExists "ghost"] /\
   no_writes [ReqExists "ghost"] = true).
Proof.
  split; [reflexivity|].
  apply (@clone_missing_source_fails_without_writes sample_service sample_world
           "ghost" "dst" VNone VNone (VInt 100) VNone (VBool true)).
  reflexivity.
Defined.

Lemma create_existing_without_overwrite_fails_witness :
  indices sample_world !! "src" = Some sample_src /\
  truthy (VBool false) = false /\
  (let out := @create sample_service "src" VNone sample_mapping VNone (VBool false)
                sample_world in
   out.1 = inl (ValueError "src index already existed.") /\
   indices out.2 = indices sample_world /\
   indices out.2 !! "src" = Some sample_src /\
   issued sample_world out.2 [ReqExists "src"] /\
   no_writes [ReqExists "src"] = true).
Proof.
  split; [reflexivity|]. split; [reflexivity|].
  apply (@create_existing_without_overwrite_fails sample_service sample_world
           "src" sample_src VNone sample_mapping VNone (VBool false));
    reflexivity.
Defined.

Lemma clone_reindex_body_carries_size_and_script_witness :
  @clone sample_service "src" "dst" VNone VNone (VInt 100) sample_script VNone
    sample_world
  = (inr (VDict {[ "acknowledged" := VBool true ]}), sample_cloned) /\
  exists pre (body : gmap string value),
    issued sample_world sample_cloned (pre ++ [ReqReindex (VDict body)]) /\
    (truthy (VInt 100) = true -> body !! "size" = Some (VInt 100)) /\
    (truthy sample_script = true -> body !! "script" = Some sample_script) /\
    (truthy (VInt 100) = false -> body !! "size" = None) /\
    (truthy sample_script = false -> body !! "script" = None) /\
    (truthy (VInt 100) = false -> truthy sample_script = false ->
     body = {[ "source" := VDict {[ "index" := VStr "src" ]};
               "dest" := VDict {[ "index" := VStr "dst" ]} ]}).
Proof.
  assert (Hrun :
    @clone sample_service "src" "dst" VNone VNone (VInt 100) sample_script VNone
      sample_world
    = (inr (VDict {[ "acknowledged" := VBool true ]}), sample_cloned))
    by (vm_compute; reflexivity).
  split; [exact Hrun|].
  exact (@clone_reindex_body_carries_size_and_script sample_service sample_world
           "src" "dst" VNone VNone (VInt 100) sample_script VNone _ _ Hrun).
Defined.

(** The claim C9 as first stated fails when [size] is set to 0 or
    [script] to an empty object: the run succeeds and the reindex body
    has neither key. *)
Lemma clone_drops_zero_size_and_empty_script :
  let out := @clone sample_service "src" "dst" VNone VNone (VInt 0) (VDict ∅) VNone
               sample_world in
  let body : gmap string value :=
    {[ "source" := VDict {[ "index" := VStr "src" ]};
       "dest" := VDict {[ "index" := VStr "dst" ]} ]} in
  out.1 = inr (VDict {[ "acknowledged" := VBool true ]}) /\
  last (requests out.2) = Some (ReqReindex (VDict body)) /\
  body !! "size" = None /\
  body !! "script" = None.
Proof. repeat split; vm_compute; reflexivity. Qed.

Lemma clone_defaults_copy_mapping_and_stripped_settings_witness :
  indices sample_world !! "src" = Some sample_src /\
  idx_settings sample_src
  = VDict {[ "index" :=
      VDict {[ "number_of_shards" := VStr "3";
               "creation_date" := VStr "169";
               "uuid" := VStr "abc" ]} ]} /\
  (indices sample_world !! "dst" = None \/ truthy VNone = true) /\
  let out := @clone sample_service "src" "dst" VNone VNone VNone VNone VNone
               sample_world in
  let deletes :=
    if bool_decide (is_Some (indices sample_world !! "dst"))
    then [ReqDelete "dst"] else [] in
  exists i' : gmap string value,
    (forall k, i' !! k
       = if decide (k ∈ server_assigned_keys) then None
         else ({[ "number_of_shards" := VStr "3";
                  "creation_date" := VStr "169";
                  "uuid" := VStr "abc" ]} : gmap string value) !! k) /\
    let payload :=
      VDict {[ "settings" :=
                 VDict (<["index" := VDict i']>
                   {[ "index" :=
                      VDict {[ "number_of_shards" := VStr "3";
                               "creation_date" := VStr "169";
                               "uuid" := VStr "abc" ]} ]});
               "mappings" := idx_mappings sample_src ]} in
    let body := VDict (reindex_body "src" "dst" VNone VNone) in
    out.1 = inr (@acknowledge sample_service (ReqReindex body)) /\
    issued sample_world out.2
      ([ReqExists "src"; ReqExists "src"; ReqGetMapping "src";
        ReqExists "src"; ReqGetSettings "src"; ReqExists "dst"]
       ++ deletes ++ [ReqCreate "dst" payload; ReqReindex body]) /\
    indices out.2
    = <["dst" := @materialise sample_service "dst" payload]> (indices sample_world) /\
    (truthy VNone = false -> truthy VNone = false ->
     body = VDict {[ "source" := VDict {[ "index" := VStr "src" ]};
                     "dest" := VDict {[ "index" := VStr "dst" ]} ]}).
Proof.
  split; [reflexivity|]. split; [reflexivity|]. split; [left; reflexivity|].
  apply (@clone_defaults_copy_mapping_and_stripped_settings sample_service
           sample_world "src" "dst" sample_src _ _ VNone VNone).
  - reflexivity.
  - reflexivity.
  - reflexivity.
  - left. reflexivity.
Defined.

(** The claim C1 as first stated fails for an existing source in two
    ways: when the destination exists already, [clone] stops at the
    guard of [create]; when the source settings have no "index" object,
    it stops in [clone_settings].  Neither run creates or reindexes. *)
Lemma clone_defaults_can_fail :
  (indices crowded_world !! "src" = Some sample_src /\
   let out := @clone sample_service "src" "dst" VNone VNone VNone VNone VNone
                crowded_world in
   out.1 = inl (ValueError "dst index already existed.") /\
   requests out.2
   = [ReqExists "src"; ReqExists "src"; ReqGetMapping "src";
      ReqExists "src"; ReqGetSettings "src"; ReqExists "dst"]) /\
  (indices bare_world !! "src" = Some bare_src /\
   indices bare_world !! "dst" = None /\
   let out := @clone sample_service "src" "dst" VNone VNone VNone VNone VNone
                bare_world in
   out.1 = inl (KeyError "index") /\
   requests out.2
   = [ReqExists "src"; ReqExists "src"; ReqGetMapping "src";
      ReqExists "src"; ReqGetSettings "src"]).
Proof. repeat split; vm_compute; reflexivity. Qed.

(** The run of the example of the specification: the creation payload
    keeps the mapping and only "number_of_shards" under "index". *)
Example clone_sample_run :
  requests (@clone sample_service "src" "dst" VNone VNone VNone VNone VNone
              sample_world).2
  = [ReqExists "src"; ReqExists "src"; ReqGetMapping "src";
     ReqExists "src"; ReqGetSettings "src"; ReqExists "dst";
     ReqCreate "dst"
       (VDict {[ "settings" :=
                   VDict {[ "index" := VDict {[ "number_of_shards" := VStr "3" ]} ]};
                 "mappings" := sample_mapping ]});
     ReqReindex
       (VDict {[ "source" := VDict {[ "index" := VStr "src" ]};
                 "dest" := VDict {[ "index" := VStr "dst" ]} ]})].
Proof. vm_compute. reflexivity. Qed.

(** * Further properties of the facade *)

(** ** set_doctype, beyond the single rename *)

(** X1: [set_doctype] returns a mapping exactly for dictionaries with
    one top-level key; every other argument raises. *)
Theorem set_doctype_succeeds_iff_single_key (mapping : value) (doc_type : string) :
  (exists m', set_doctype mapping doc_type = inr m') <->
  (exists d : gmap string value, mapping = VDict d /\ size d = 1).
Proof.
  split.
  - intros [m' Hok]. destruct mapping as [| | | | |d]; try discriminate.
    exists d. split; [reflexivity|].
    unfold set_doctype in Hok.
    destruct (Nat.eqb (size d) 1) eqn:Heq; [|discriminate].
    apply Nat.eqb_eq in Heq. exact Heq.
  - intros (d & -> & Hsize).
    destruct (size_one_singleton d Hsize) as (k & b & ->).
    rewrite set_doctype_singleton. eauto.
Qed.

(** X2: renaming the document type twice is renaming it once to the
    last name, and renaming back to the first name gives the mapping
    that was there at the start; the body is never altered. *)
Theorem set_doctype_renames_compose (k t1 t2 : string) (b : value) :
  exists m1,
    set_doctype (VDict {[ k := b ]}) t1 = inr m1 /\
    set_doctype m1 t2 = set_doctype (VDict {[ k := b ]}) t2 /\
    set_doctype m1 t2 = inr (VDict {[ t2 := b ]}) /\
    set_doctype m1 k = inr (VDict {[ k := b ]}).
Proof.
  exists (VDict {[ t1 := b ]}).
  rewrite !set_doctype_singleton. auto.
Qed.

(** ** Runs that only read *)

Section Effects.
Context `{Service}.

Lemma no_writes_app rs1 rs2 :
  no_writes rs1 = true -> no_writes rs2 = true -> no_writes (rs1 ++ rs2) = true.
Proof. unfold no_writes. intros H1 H2. rewrite forallb_app, H1, H2. reflexivity. Qed.

Lemma quiet_stay {A} (r : result A) w : quiet (lift r) w.
Proof.
  split; [reflexivity|]. exists []. split; [|reflexivity].
  unfold issued. simpl. rewrite app_nil_r. reflexivity.
Qed.

Lemma quiet_ret {A} (a : A) w : quiet (ret a) w.
Proof. apply (quiet_stay (inr a)). Qed.

Lemma quiet_raise {A} (e : exn) w : quiet (@raise A e) w.
Proof. apply (quiet_stay (inl e)). Qed.

Lemma quiet_bind {A B} (m : M A) (k : A -> M B) w :
  quiet m w ->
  (forall a w1, m w = (inr a, w1) -> quiet (k a) w1) ->
  quiet (bind m k) w.
Proof.
  unfold quiet, bind. intros [Hix (rs1 & Hrs1 & Hq1)] Hk.
  destruct (m w) as [[e|a] w1]; simpl in *.
  - split; [exact Hix|]. exists rs1. auto.
  - destruct (Hk a w1 eq_refl) as [Hix2 (rs2 & Hrs2 & Hq2)].
    split; [congruence|].
    exists (rs1 ++ rs2)%list. split; [|apply no_writes_app; assumption].
    unfold issued in *. rewrite Hrs2, Hrs1, app_assoc. reflexivity.
Qed.

Lemma quiet_exists name w : quiet (exists_ name) w.
Proof. split; [reflexivity|]. exists [ReqExists name]. split; reflexivity. Qed.

Lemma quiet_es_read r name envelope w :
  is_write r = false -> quiet (es_read r name envelope) w.
Proof.
  intros Hr. unfold quiet, es_read.
  destruct (indices w !! name); (split; [reflexivity|]); exists [r];
    (split; [reflexivity|]); unfold no_writes; simpl; rewrite Hr; reflexivity.
Qed.

Ltac quiet_step :=
  first [ apply quiet_bind; [|intros ? ? _]
        | apply quiet_exists
        | apply quiet_es_read; reflexivity
        | apply quiet_stay
        | apply quiet_ret
        | apply quiet_raise
        | match goal with |- quiet (if ?b then _ else _) _ => destruct b end
        | match goal with |- quiet (match ?o with Some _ => _ | None => _ end) _ =>
            destruct o end ].

Lemma quiet_clone_mapping name doc_type w : quiet (clone_mapping name doc_type) w.
Proof. unfold clone_mapping, es_get_mapping. repeat quiet_step. Qed.

Lemma quiet_clone_settings name w : quiet (clone_settings name) w.
Proof. unfold clone_settings, es_get_settings. repeat quiet_step. Qed.

(** X5: the four accessors, [clone_mapping] and [clone_settings] are
    reads: whether they return, return [None] or raise, the indices of
    the service are as before and no create, delete or reindex request
    has been issued.  In particular the keys that [clone_settings]
    strips stay in the settings the service holds. *)
Theorem reads_leave_service_untouched w index_name doc_type :
  quiet (get_info index_name) w /\
  quiet (get_mapping index_name) w /\
  quiet (get_settings index_name) w /\
  quiet (stats index_name) w /\
  quiet (clone_mapping index_name doc_type) w /\
  quiet (clone_settings index_name) w.
Proof.
  unfold get_info, get_mapping, get_settings, stats,
    es_get, es_get_mapping, es_get_settings, es_stats.
  split; [|split; [|split; [|split; [|split]]]];
    try apply quiet_clone_mapping; try apply quiet_clone_settings;
    repeat quiet_step.
Qed.

(** ** Reads of an existing index *)

Ltac enter_existing Hsome :=
  rewrite (bind_ok _ _ _ _ _ (exists_found _ _ _ Hsome));
  cbv beta; cbn [negb]; cbv iota.

Ltac enter_missing Hnone :=
  rewrite (bind_ok _ _ _ _ _ (exists_missing _ _ Hnone));
  cbv beta; cbn [negb]; cbv iota.

(** X6: for an existing index the accessors return what the service
    holds, taken out of the per-index envelope of the reply: the index
    description, the mapping, the settings (server-assigned keys
    included) and the statistics; each costs the existence check and
    one read. *)
Theorem accessors_unwrap_reply_when_present w index_name ix :
  indices w !! index_name = Some ix ->
  let checked := record_request (ReqExists index_name) w in
  get_info index_name w
  = (inr (idx_info ix), record_request (ReqGet index_name) checked) /\
  get_mapping index_name w
  = (inr (idx_mappings ix), record_request (ReqGetMapping index_name) checked) /\
  get_settings index_name w
  = (inr (idx_settings ix), record_request (ReqGetSettings index_name) checked) /\
  stats index_name w
  = (inr (idx_stats ix), record_request (ReqStats index_name) checked).
Proof.
  intros Hsome checked. subst checked.
  unfold get_info, get_mapping, get_settings, stats.
  split; [|split; [|split]]; enter_existing Hsome;
    unfold bind, es_get, es_get_mapping, es_get_settings, es_stats, es_read, lift;
    cbn [indices record_request]; rewrite Hsome;
    rewrite ?getitem_singleton; reflexivity.
Qed.

(** X7: [clone_mapping] and [clone_settings] on a missing index raise
    the ValueError "index not existed: <name>" right after the
    existence check, where the accessors would return [None]. *)
Theorem clone_parts_raise_when_missing w index_name doc_type :
  indices w !! index_name = None ->
  clone_mapping index_name doc_type w
  = (inl (ValueError ("index not existed: " ++ index_name)),
     record_request (ReqExists index_name) w) /\
  clone_settings index_name w
  = (inl (ValueError ("index not existed: " ++ index_name)),
     record_request (ReqExists index_name) w).
Proof.
  intros Hnone. unfold clone_mapping, clone_settings.
  split; enter_missing Hnone; reflexivity.
Qed.

(** ** clone_mapping with a new document type *)

Lemma clone_mapping_fetched w name ix doc_type :
  indices w !! name = Some ix ->
  (clone_mapping name doc_type w).1
  = match doc_type with
    | Some t => if truthy_name doc_type then set_doctype (idx_mappings ix) t
                else inr (idx_mappings ix)
    | None => inr (idx_mappings ix)
    end.
Proof.
  intros Hsome. unfold clone_mapping. enter_existing Hsome.
  rewrite (fetch_mapping _ _ ix) by exact Hsome.
  destruct doc_type as [t|]; [|reflexivity].
  destruct (truthy_name (Some t)); reflexivity.
Qed.

(** X8: with a non-empty new document type, [clone_mapping] of an index
    whose mapping has exactly one type returns the same body under the
    new type. *)
Theorem clone_mapping_renames_single_type
    w index_name ix (d : gmap string value) (doc_type : string) :
  indices w !! index_name = Some ix ->
  idx_mappings ix = VDict d ->
  size d = 1 ->
  doc_type <> "" ->
  exists k b,
    d = {[ k := b ]} /\
    (clone_mapping index_name (Some doc_type) w).1 = inr (VDict {[ doc_type := b ]}).
Proof.
  intros Hsome Hd Hsize Hname.
  destruct (size_one_singleton d Hsize) as (k & b & ->).
  exists k, b. split; [reflexivity|].
  rewrite (clone_mapping_fetched w index_name ix) by exact Hsome.
  apply String.eqb_neq in Hname. cbn [truthy_name]. rewrite Hname. cbn [negb].
  rewrite Hd. apply set_doctype_singleton.
Qed.

(** X9: without a new document type ([None], or the empty string, which
    [if doc_type:] treats alike) [clone_mapping] returns the fetched
    mapping as it is, whatever its shape: no check on the number of
    types is made. *)
Theorem clone_mapping_keeps_mapping_without_doctype w index_name ix doc_type :
  indices w !! index_name = Some ix ->
  truthy_name doc_type = false ->
  (clone_mapping index_name doc_type w).1 = inr (idx_mappings ix).
Proof.
  intros Hsome Hdt.
  rewrite (clone_mapping_fetched w index_name ix) by exact Hsome.
  destruct doc_type as [t|]; [|reflexivity].
  rewrite Hdt. reflexivity.
Qed.

(** X10: with a non-empty new document type, [clone_mapping] of an
    index whose mapping has no type or several raises the ValueError of
    [set_doctype]. *)
Theorem clone_mapping_rejects_other_shapes
    w index_name ix (d : gmap string value) (doc_type : string) :
  indices w !! index_name = Some ix ->
  idx_mappings ix = VDict d ->
  size d <> 1 ->
  doc_type <> "" ->
  (clone_mapping index_name (Some doc_type) w).1
  = inl (ValueError "There should be exactly one doc_type in a mapping.").
Proof.
  intros Hsome Hd Hsize Hname.
  rewrite (clone_mapping_fetched w index_name ix) by exact Hsome.
  apply String.eqb_neq in Hname. cbn [truthy_name]. rewrite Hname. cbn [negb].
  rewrite Hd. unfold set_doctype.
  destruct (Nat.eqb (size d) 1) eqn:Heq; [|reflexivity].
  apply Nat.eqb_eq in Heq. contradiction.
Qed.

(** ** clone_settings: when it succeeds *)

Lemma clone_settings_fetched w name ix :
  indices w !! name = Some ix ->
  (clone_settings name w).1
  = match pop_index_key (idx_settings ix) "creation_date" with
    | inl e => inl e
    | inr s1 =>
        match pop_index_key s1 "version" with
        | inl e => inl e
        | inr s2 =>
            match pop_index_key s2 "uuid" with
            | inl e => inl e
            | inr s3 => pop_index_key s3 "provided_name"
            end
        end
    end.
Proof.
  intros Hsome. unfold clone_settings. enter_existing Hsome.
  rewrite (fetch_settings _ _ ix) by exact Hsome.
  unfold bind, lift, ret.
  destruct (pop_index_key (idx_settings ix) "creation_date") as [e|s1];
    [reflexivity|].
  destruct (pop_index_key s1 "version") as [e|s2]; [reflexivity|].
  destruct (pop_index_key s2 "uuid") as [e|s3]; [reflexivity|].
  destruct (pop_index_key s3 "provided_name"); reflexivity.
Qed.

Lemma pop_index_key_ok_inv settings k v :
  pop_index_key settings k = inr v ->
  exists s i : gmap string value,
    settings = VDict s /\ s !! "index" = Some (VDict i).
Proof.
  unfold pop_index_key, getitem.
  destruct settings as [| | | | |s]; try discriminate.
  destruct (s !! "index") as [[| | | | |i]|] eqn:Hix; try discriminate.
  intros _. eauto.
Qed.

(** X11: for an existing index, [clone_settings] returns settings
    exactly when the fetched settings are a dictionary holding a
    dictionary under "index"; with anything else there (no such key, a
    string, a list, [None]) it raises. *)
Theorem clone_settings_succeeds_iff_index_object w index_name ix :
  indices w !! index_name = Some ix ->
  (exists v, (clone_settings index_name w).1 = inr v) <->
  (exists s i : gmap string value,
     idx_settings ix = VDict s /\ s !! "index" = Some (VDict i)).
Proof.
  intros Hsome. split.
  - intros [v Hok].
    rewrite (clone_settings_fetched w index_name ix) in Hok by exact Hsome.
    destruct (pop_index_key (idx_settings ix) "creation_date") as [e|s1] eqn:Hpop;
      [discriminate|].
    apply (pop_index_key_ok_inv _ _ _ Hpop).
  - intros (s & i & Hs & Hix).
    rewrite (clone_settings_stripped w index_name ix s i Hsome Hs Hix).
    eauto.
Qed.

(** ** create: when it succeeds and what it leaves behind *)

Lemma create_blocked w name ix body mapping settings overwrite :
  indices w !! name = Some ix ->
  truthy overwrite = false ->
  create name body mapping settings overwrite w
  = (inl (ValueError (name ++ " index already existed.")),
     record_request (ReqExists name) w).
Proof.
  intros Hsome Hov. unfold create. enter_existing Hsome.
  rewrite Hov. reflexivity.
Qed.

Lemma create_go_dec w name overwrite :
  {indices w !! name = None \/ truthy overwrite = true}
  + {exists ix, indices w !! name = Some ix /\ truthy overwrite = false}.
Proof.
  destruct (indices w !! name) as [ix|]; [|left; left; reflexivity].
  destruct (truthy overwrite); [left; right; reflexivity|right; eauto].
Qed.

(** X13: [create] succeeds exactly when the name is free or [overwrite]
    is true. *)
Theorem create_succeeds_iff_free_or_overwrite
    w index_name body mapping settings overwrite :
  (exists r, (create index_name body mapping settings overwrite w).1 = inr r) <->
  (indices w !! index_name = None \/ truthy overwrite = true).
Proof.
  split.
  - intros [r Hok].
    destruct (create_go_dec w index_name overwrite) as [Hgo|(ix & Hsome & Hov)];
      [exact Hgo|].
    rewrite (create_blocked w index_name ix) in Hok by assumption.
    discriminate.
  - intros Hgo. rewrite (create_sends w index_name _ _ _ _ Hgo). cbv zeta. eauto.
Qed.

(** X14: after a successful [create] the name is bound to what the
    service made of the payload, also when an index of that name was
    there before ([overwrite]): nothing of the old index is kept; and an
    existence check of the name now answers true. *)
Theorem create_installs_new_index
    w index_name body mapping settings overwrite :
  indices w !! index_name = None \/ truthy overwrite = true ->
  let out := create index_name body mapping settings overwrite w in
  let payload :=
    if truthy body then body
    else VDict {[ "settings" := settings; "mappings" := mapping ]} in
  indices out.2 = <[index_name := materialise index_name payload]> (indices w) /\
  (exists_ index_name out.2).1 = inr true.
Proof.
  intros Hgo out payload. subst out payload.
  rewrite (create_sends w index_name _ _ _ _ Hgo). cbv zeta. cbn [snd indices].
  split; [reflexivity|].
  erewrite exists_found by apply lookup_insert_eq. reflexivity.
Qed.

(** ** Which indices a write can reach *)

Lemma touches_only_quiet {A} name (m : M A) :
  (forall w, quiet m w) -> touches_only name m.
Proof. intros Hq w other _. destruct (Hq w) as [-> _]. reflexivity. Qed.

Lemma touches_only_bind {A B} name (m : M A) (k : A -> M B) :
  touches_only name m -> (forall a, touches_only name (k a)) ->
  touches_only name (bind m k).
Proof.
  intros Hm Hk w other Hne. unfold bind.
  specialize (Hm w other Hne). destruct (m w) as [[e|a] w1]; simpl in *.
  - exact Hm.
  - rewrite (Hk a w1 other Hne). exact Hm.
Qed.

Lemma touches_only_es_create name body : touches_only name (es_create name body).
Proof.
  intros w other Hne. unfold es_create.
  destruct (indices w !! name); cbn [snd indices record_request];
    [reflexivity|].
  apply lookup_insert_ne. congruence.
Qed.

Lemma touches_only_delete name : touches_only name (delete_ name).
Proof.
  intros w other Hne. unfold delete_, es_delete_ignore_404. cbn [snd indices].
  apply lookup_delete_ne. congruence.
Qed.

Lemma touches_only_es_reindex name body : touches_only name (es_reindex body).
Proof. intros w other _. reflexivity. Qed.

Lemma touches_only_create name body mapping settings overwrite :
  touches_only name (create name body mapping settings overwrite).
Proof.
  unfold create.
  apply touches_only_bind;
    [apply touches_only_quiet; intros w; apply quiet_exists|intros found].
  apply touches_only_bind.
  - destruct found; [destruct (negb (truthy overwrite))|].
    + apply touches_only_quiet. intros w. apply quiet_raise.
    + apply touches_only_bind; [apply touches_only_delete|intros _].
      apply touches_only_quiet. intros w. apply quiet_ret.
    + apply touches_only_quiet. intros w. apply quiet_ret.
  - intros _. destruct (truthy body); apply touches_only_es_create.
Qed.

(** X15: whatever their arguments and whether they succeed or raise,
    [create] changes no index other than the one it names, and [clone]
    changes no index other than the destination; in particular [clone]
    leaves the source index as it was whenever the two names differ. *)
Theorem writes_reach_only_the_named_index
    src_index dest_index body mapping settings size script overwrite :
  touches_only dest_index (create dest_index body mapping settings overwrite) /\
  touches_only dest_index
    (clone src_index dest_index mapping settings size script overwrite) /\
  (src_index <> dest_index ->
   forall w,
     indices (clone src_index dest_index mapping settings size script overwrite w).2
       !! src_index
     = indices w !! src_index).
Proof.
  assert (Hclone : touches_only dest_index
            (clone src_index dest_index mapping settings size script overwrite)).
  { unfold clone.
    apply touches_only_bind;
      [apply touches_only_quiet; intros w; apply quiet_exists|intros found].
    destruct (negb found);
      [apply touches_only_quiet; intros w; apply quiet_raise|].
    apply touches_only_bind; [|intros mapping'].
    { apply touches_only_quiet. intros w.
      destruct (negb (truthy mapping));
        [apply quiet_clone_mapping|apply quiet_ret]. }
    apply touches_only_bind; [|intros settings'].
    { apply touches_only_quiet. intros w.
      destruct (negb (truthy settings));
        [apply quiet_clone_settings|apply quiet_ret]. }
    apply touches_only_bind; [apply touches_only_create|intros _].
    apply touches_only_es_reindex. }
  split; [apply touches_only_create|]. split; [exact Hclone|].
  intros Hne w. apply Hclone. exact Hne.
Qed.

(** ** clone against an existing destination *)

Lemma fails_quietly_bind {A B} (m : M A) (k : A -> M B) w :
  quiet m w ->
  (forall a w1, m w = (inr a, w1) -> indices w1 = indices w ->
     quiet (k a) w1 /\ exists e, (k a w1).1 = inl e) ->
  quiet (bind m k) w /\ exists e, (bind m k w).1 = inl e.
Proof.
  intros Hm Hk. split.
  - apply quiet_bind; [exact Hm|]. intros a w1 Hrun.
    apply (Hk a w1 Hrun). destruct Hm as [Hix _]. rewrite Hrun in Hix. exact Hix.
  - unfold bind. destruct Hm as [Hix _].
    destruct (m w) as [[e|a] w1] eqn:Hrun; [eauto|].
    apply (Hk a w1 eq_refl). exact Hix.
Qed.

(** X16: when the destination exists and [overwrite] is false (or not
    given), [clone] always raises and, whatever its other arguments,
    issues no create, delete or reindex request: the service holds the
    same indices afterwards, the old destination included. *)
Theorem clone_blocked_by_existing_destination
    w src_index dest_index ix mapping settings size script overwrite :
  indices w !! dest_index = Some ix ->
  truthy overwrite = false ->
  quiet (clone src_index dest_index mapping settings size script overwrite) w /\
  exists e,
    (clone src_index dest_index mapping settings size script overwrite w).1 = inl e.
Proof.
  intros Hdst Hov. unfold clone.
  apply fails_quietly_bind; [apply quiet_exists|intros found w1 _ Hi1].
  destruct (negb found).
  { split; [apply quiet_raise|]. unfold raise. simpl. eauto. }
  apply fails_quietly_bind; [|intros mapping' w2 _ Hi2].
  { destruct (negb (truthy mapping)); [apply quiet_clone_mapping|apply quiet_ret]. }
  apply fails_quietly_bind; [|intros settings' w3 _ Hi3].
  { destruct (negb (truthy settings)); [apply quiet_clone_settings|apply quiet_ret]. }
  assert (Hdst3 : indices w3 !! dest_index = Some ix) by congruence.
  pose proof (create_blocked w3 dest_index ix VNone mapping' settings' overwrite
                Hdst3 Hov) as Hcreate.
  split.
  - apply quiet_bind.
    + unfold quiet. rewrite Hcreate. split; [reflexivity|].
      exists [ReqExists dest_index]. split; reflexivity.
    + intros a w4 Hrun. rewrite Hcreate in Hrun. discriminate.
  - unfold bind. rewrite Hcreate. simpl. eauto.
Qed.

(** ** clone with a mapping and settings of the caller *)

(** X17: when the caller passes a non-empty mapping and non-empty
    settings, [clone] fetches neither from the source: after the two
    existence checks it creates the destination with exactly the values
    passed (the settings are not stripped of anything) and submits the
    reindex request. *)
Theorem clone_uses_given_mapping_and_settings
    w src_index dest_index ix mapping settings size script overwrite :
  indices w !! src_index = Some ix ->
  truthy mapping = true ->
  truthy settings = true ->
  indices w !! dest_index = None \/ truthy overwrite = true ->
  let out := clone src_index dest_index mapping settings size script overwrite w in
  let deletes :=
    if bool_decide (is_Some (indices w !! dest_index))
    then [ReqDelete dest_index] else [] in
  let payload := VDict {[ "settings" := settings; "mappings" := mapping ]} in
  let body := VDict (reindex_body src_index dest_index size script) in
  out.1 = inr (acknowledge (ReqReindex body)) /\
  issued w out.2
    ([ReqExists src_index; ReqExists dest_index]
     ++ deletes ++ [ReqCreate dest_index payload; ReqReindex body]) /\
  indices out.2 = <[dest_index := materialise dest_index payload]> (indices w).
Proof.
  intros Hsome Hm Hs Hgo out deletes payload body. subst out deletes payload body.
  unfold clone. enter_existing Hsome.
  rewrite Hm, Hs. cbn [negb]. cbv iota.
  rewrite (bind_ok _ _ _ mapping _ eq_refl). cbv beta.
  rewrite (bind_ok _ _ _ settings _ eq_refl). cbv beta.
  erewrite bind_ok by (apply create_sends; exact Hgo).
  unfold es_reindex, issued. cbn [truthy]. simpl.
  destruct (bool_decide (is_Some (indices w !! dest_index))); simpl;
    rewrite <- ?app_assoc; auto.
Qed.

(** ** What a successful clone guarantees *)

Lemma quiet_run_indices {A} (m : M A) w a w1 :
  quiet m w -> m w = (a, w1) -> indices w1 = indices w.
Proof. intros [Hix _] Hrun. rewrite Hrun in Hix. exact Hix. Qed.

(** X18: if [clone] returns, then the source index existed, the
    destination was free or [overwrite] was true, and afterwards the
    service holds the indices it had with the destination bound to a
    newly created index; the last request was the reindex request, whose
    body names the source under "source" and the destination under
    "dest" and has no key besides "source", "dest", "size" and
    "script". *)
Theorem clone_success_postcondition
    w src_index dest_index mapping settings size script overwrite reply w' :
  clone src_index dest_index mapping settings size script overwrite w
  = (inr reply, w') ->
  is_Some (indices w !! src_index) /\
  (indices w !! dest_index = None \/ truthy overwrite = true) /\
  (exists payload,
     indices w' = <[dest_index := materialise dest_index payload]> (indices w)) /\
  exists pre (body : gmap string value),
    issued w w' (pre ++ [ReqReindex (VDict body)]) /\
    body !! "source" = Some (VDict {[ "index" := VStr src_index ]}) /\
    body !! "dest" = Some (VDict {[ "index" := VStr dest_index ]}) /\
    (forall k, is_Some (body !! k) -> k ∈ ["source"; "dest"; "size"; "script"]).
Proof.
  intros Hrun.
  pose proof (clone_ok_ends_with_reindex _ _ _ _ _ _ _ _ _ _ Hrun) as [pre Hpre].
  unfold clone in Hrun.
  apply bind_inr_inv in Hrun as (found & w1 & H1 & Hrun).
  unfold exists_, es_exists in H1. injection H1 as Hfound <-.
  destruct found; cbn [negb] in Hrun; [|discriminate].
  apply bool_decide_eq_true_1 in Hfound.
  apply bind_inr_inv in Hrun as (mapping' & w2 & H2 & Hrun).
  assert (Hi2 : indices w2 = indices w).
  { destruct (truthy mapping); cbn [negb] in H2.
    - apply (quiet_run_indices _ _ _ _ (quiet_ret _ _) H2).
    - apply (quiet_run_indices _ _ _ _ (quiet_clone_mapping _ _ _) H2). }
  apply bind_inr_inv in Hrun as (settings' & w3 & H3 & Hrun).
  assert (Hi3 : indices w3 = indices w).
  { rewrite <- Hi2. destruct (truthy settings); cbn [negb] in H3.
    - apply (quiet_run_indices _ _ _ _ (quiet_ret _ _) H3).
    - apply (quiet_run_indices _ _ _ _ (quiet_clone_settings _ _) H3). }
  apply bind_inr_inv in Hrun as (ack & w4 & H4 & Hrun).
  unfold es_reindex in Hrun. injection Hrun as _ <-.
  assert (Hgo : indices w3 !! dest_index = None \/ truthy overwrite = true).
  { destruct (create_go_dec w3 dest_index overwrite) as [Hgo|(ix & Hsome & Hov)];
      [exact Hgo|].
    rewrite (create_blocked w3 dest_index ix) in H4 by assumption.
    discriminate. }
  rewrite (create_sends w3 dest_index _ _ _ _ Hgo) in H4. cbv zeta in H4.
  injection H4 as _ <-. cbn [indices record_request].
  split; [exact Hfound|]. split; [rewrite <- Hi3; exact Hgo|].
  split; [rewrite Hi3; eauto|].
  exists pre, (reindex_body src_index dest_index size script).
  split; [exact Hpre|].
  unfold reindex_body.
  destruct (truthy size), (truthy script);
    (split; [reflexivity|]); (split; [reflexivity|]);
    intros k [v Hk];
    repeat (apply lookup_insert_Some in Hk as [[<- _]|[_ Hk]];
            [rewrite !elem_of_cons; auto 6|]);
    apply lookup_singleton_Some in Hk as [<- _];
    rewrite !elem_of_cons; auto 6.
Qed.

End Effects.

(** ** Concrete runs of the further properties *)

Lemma accessors_unwrap_reply_when_present_witness :
  indices sample_world !! "src" = Some sample_src /\
  let checked := record_request (ReqExists "src") sample_world in
  get_info "src" sample_world
  = (inr (idx_info sample_src), record_request (ReqGet "src") checked) /\
  get_mapping "src" sample_world
  = (inr (idx_mappings sample_src), record_request (ReqGetMapping "src") checked) /\
  get_settings "src" sample_world
  = (inr (idx_settings sample_src), record_request (ReqGetSettings "src") checked) /\
  stats "src" sample_world
  = (inr (idx_stats sample_src), record_request (ReqStats "src") checked).
Proof.
  split; [reflexivity|].
  apply (accessors_unwrap_reply_when_present sample_world "src" sample_src).
  reflexivity.
Defined.

Lemma clone_parts_raise_when_missing_witness :
  indices sample_world !! "ghost" = None /\
  clone_mapping "ghost" (Some "item") sample_world
  = (inl (ValueError ("index not existed: " ++ "ghost")),
     record_request (ReqExists "ghost") sample_world) /\
  clone_settings "ghost" sample_world
  = (inl (ValueError ("index not existed: " ++ "ghost")),
     record_request (ReqExists "ghost") sample_world).
Proof.
  split; [reflexivity|].
  apply (clone_parts_raise_when_missing sample_world "ghost" (Some "item")).
  reflexivity.
Defined.

Lemma clone_mapping_renames_single_type_witness :
  indices sample_world !! "src" = Some sample_src /\
  idx_mappings sample_src
  = VDict {[ "doc" :=
      VDict {[ "properties" :=
        VDict {[ "f" := VDict {[ "type" := VStr "text" ]} ]} ]} ]} /\
  size ({[ "doc" :=
           VDict {[ "properties" :=
             VDict {[ "f" := VDict {[ "type" := VStr "text" ]} ]} ]} ]}
        : gmap string value) = 1 /\
  "item" <> "" /\
  exists k b,
    ({[ "doc" :=
        VDict {[ "properties" :=
          VDict {[ "f" := VDict {[ "type" := VStr "text" ]} ]} ]} ]}
     : gmap string value) = {[ k := b ]} /\
    (clone_mapping "src" (Some "item") sample_world).1
    = inr (VDict {[ "item" := b ]}).
Proof.
  split; [reflexivity|]. split; [reflexivity|]. split; [reflexivity|].
  split; [discriminate|].
  apply (clone_mapping_renames_single_type sample_world "src" sample_src
           {[ "doc" :=
              VDict {[ "properties" :=
                VDict {[ "f" := VDict {[ "type" := VStr "text" ]} ]} ]} ]} "item").
  - reflexivity.
  - reflexivity.
  - reflexivity.
  - discriminate.
Defined.

Lemma clone_mapping_keeps_mapping_without_doctype_witness :
  indices multi_world !! "src" = Some multi_src /\
  truthy_name (Some "") = false /\
  (clone_mapping "src" (Some "") multi_world).1 = inr (idx_mappings multi_src).
Proof.
  split; [reflexivity|]. split; [reflexivity|].
  apply (clone_mapping_keeps_mapping_without_doctype multi_world "src" multi_src
           (Some "")); reflexivity.
Defined.

Lemma clone_mapping_rejects_other_shapes_witness :
  indices multi_world !! "src" = Some multi_src /\
  idx_mappings multi_src = VDict {[ "a" := VDict ∅; "b" := VDict ∅ ]} /\
  size ({[ "a" := VDict ∅; "b" := VDict ∅ ]} : gmap string value) <> 1 /\
  "item" <> "" /\
  (clone_mapping "src" (Some "item") multi_world).1
  = inl (ValueError "There should be exactly one doc_type in a mapping.").
Proof.
  assert (Hs : size ({[ "a" := VDict ∅; "b" := VDict ∅ ]} : gmap string value) <> 1)
    by (vm_compute; discriminate).
  split; [reflexivity|]. split; [reflexivity|]. split; [exact Hs|].
  split; [discriminate|].
  apply (clone_mapping_rejects_other_shapes multi_world "src" multi_src
           {[ "a" := VDict ∅; "b" := VDict ∅ ]} "item");
    [reflexivity|reflexivity|exact Hs|discriminate].
Defined.

Lemma clone_settings_succeeds_iff_index_object_witness :
  indices bare_world !! "src" = Some bare_src /\
  ((exists v, (clone_settings "src" bare_world).1 = inr v) <->
   (exists s i : gmap string value,
      idx_settings bare_src = VDict s /\ s !! "index" = Some (VDict i))).
Proof.
  split; [reflexivity|].
  apply (clone_settings_succeeds_iff_index_object bare_world "src" bare_src).
  reflexivity.
Defined.

Lemma create_installs_new_index_witness :
  (indices crowded_world !! "dst" = None \/ truthy (VBool true) = true) /\
  let out := @create sample_service "dst" VNone sample_mapping VNone (VBool true)
               crowded_world in
  let payload :=
    if truthy VNone then VNone
    else VDict {[ "settings" := VNone; "mappings" := sample_mapping ]} in
  indices out.2
  = <["dst" := @materialise sample_service "dst" payload]> (indices crowded_world) /\
  (exists_ "dst" out.2).1 = inr true.
Proof.
  split; [right; reflexivity|].
  apply (@create_installs_new_index sample_service crowded_world
           "dst" VNone sample_mapping VNone (VBool true)).
  right. reflexivity.
Defined.

Lemma clone_blocked_by_existing_destination_witness :
  indices crowded_world !! "dst" = Some bare_src /\
  truthy VNone = false /\
  quiet (@clone sample_service "src" "dst" sample_mapping VNone (VInt 5) VNone VNone)
    crowded_world /\
  exists e,
    (@clone sample_service "src" "dst" sample_mapping VNone (VInt 5) VNone VNone
       crowded_world).1 = inl e.
Proof.
  split; [reflexivity|]. split; [reflexivity|].
  apply (@clone_blocked_by_existing_destination sample_service crowded_world
           "src" "dst" bare_src sample_mapping VNone (VInt 5) VNone VNone);
    reflexivity.
Defined.

Lemma clone_uses_given_mapping_and_settings_witness :
  indices sample_world !! "src" = Some sample_src /\
  truthy sample_mapping = true /\
  truthy sample_settings = true /\
  (indices sample_world !! "dst" = None \/ truthy VNone = true) /\
  let out := @clone sample_service "src" "dst" sample_mapping sample_settings
               VNone VNone VNone sample_world in
  let deletes :=
    if bool_decide (is_Some (indices sample_world !! "dst"))
    then [ReqDelete "dst"] else [] in
  let payload :=
    VDict {[ "settings" := sample_settings; "mappings" := sample_mapping ]} in
  let body := VDict (reindex_body "src" "dst" VNone VNone) in
  out.1 = inr (@acknowledge sample_service (ReqReindex body)) /\
  issued sample_world out.2
    ([ReqExists "src"; ReqExists "dst"]
     ++ deletes ++ [ReqCreate "dst" payload; ReqReindex body]) /\
  indices out.2
  = <["dst" := @materialise sample_service "dst" payload]> (indices sample_world).
Proof.
  split; [reflexivity|]. split; [reflexivity|]. split; [reflexivity|].
  split; [left; reflexivity|].
  apply (@clone_uses_given_mapping_and_settings sample_service sample_world
           "src" "dst" sample_src sample_mapping sample_settings VNone VNone VNone);
    [reflexivity|reflexivity|reflexivity|left; reflexivity].
Defined.

Lemma clone_success_postcondition_witness :
  @clone sample_service "src" "dst" VNone VNone (VInt 100) sample_script VNone
    sample_world
  = (inr (VDict {[ "acknowledged" := VBool true ]}), sample_cloned) /\
  is_Some (indices sample_world !! "src") /\
  (indices sample_world !! "dst" = None \/ truthy VNone = true) /\
  (exists payload,
     indices sample_cloned
     = <["dst" := @materialise sample_service "dst" payload]> (indices sample_world)) /\
  exists pre (body : gmap string value),
    issued sample_world sample_cloned (pre ++ [ReqReindex (VDict body)]) /\
    body !! "source" = Some (VDict {[ "index" := VStr "src" ]}) /\
    body !! "dest" = Some (VDict {[ "index" := VStr "dst" ]}) /\
    (forall k, is_Some (body !! k) -> k ∈ ["source"; "dest"; "size"; "script"]).
Proof.
  assert (Hrun :
    @clone sample_service "src" "dst" VNone VNone (VInt 100) sample_script VNone
      sample_world
    = (inr (VDict {[ "acknowledged" := VBool true ]}), sample_cloned))
    by (vm_compute; reflexivity).
  split; [exact Hrun|].
  exact (@clone_success_postcondition sample_service sample_world
           "src" "dst" VNone VNone (VInt 100) sample_script VNone _ _ Hrun).
Defined.
